(** * lenslocked: the user model (package [models])

    A shallow embedding of [models/users.go]: the [User] record, the
    [UserDB] interface, and the three layers that implement it

      userService  -->  userValidator  -->  userGorm

    Every call that leaves the package (gorm, bcrypt, the random token
    generator) and every call to the next [UserDB] of the chain is an
    event of a small free monad, so that "what was called, with which
    arguments, in which order" is part of what a program means. *)

From Stdlib Require Import String List NArith ZArith Bool Lia.
Import ListNotations.
Open Scope string_scope.

(** ** Errors *)

(** Go's [error] values that the package can see.  The first three are
    the package's own sentinels; the next three are the sentinels of
    bcrypt and gorm that the code compares against or that the libraries
    report; [ErrOther] is any other error.  A nil error is [None]. *)
Inductive error_value : Type :=
| ErrNotFound
| ErrInvalidID
| ErrInvalidPassword
| ErrMismatchedHashAndPassword
| ErrHashTooShort
| ErrRecordNotFound
| ErrOther (msg : string).

Definition error := option error_value.

Definition userPwPepper : string := "random-string-as-pepper".
Definition hmacSecretKey : string := "secret-hmac-key".

(** [bcrypt.DefaultCost] *)
Definition DefaultCost : Z := 10%Z.

(** ** The user record *)

(** Go's [uint] is an [N]; conversions from [int] wrap around modulo
    [2^uint_bits]. *)
Definition uint := N.
Definition uint_bits : Z := 64%Z.
Definition uint_of_int (z : Z) : uint := Z.to_N (z mod 2 ^ uint_bits)%Z.

(** [gorm.Model] (ID, CreatedAt, UpdatedAt, DeletedAt) followed by the
    fields of [User].  Times are opaque numbers. *)
Record User : Type := mkUser {
  ID : uint;
  CreatedAt : Z;
  UpdatedAt : Z;
  DeletedAt : option Z;
  Name : string;
  Email : string;
  Password : string;
  PasswordHash : string;
  Remember : string;
  RememberHash : string;
  Age : Z
}.

(** The zero value, [var user User]. *)
Definition zeroUser : User := mkUser 0%N 0%Z 0%Z None "" "" "" "" "" "" 0%Z.

Definition set_ID (v : uint) (u : User) : User :=
  mkUser v (CreatedAt u) (UpdatedAt u) (DeletedAt u) (Name u) (Email u)
         (Password u) (PasswordHash u) (Remember u) (RememberHash u) (Age u).
Definition set_Name (v : string) (u : User) : User :=
  mkUser (ID u) (CreatedAt u) (UpdatedAt u) (DeletedAt u) v (Email u)
         (Password u) (PasswordHash u) (Remember u) (RememberHash u) (Age u).
Definition set_Password (v : string) (u : User) : User :=
  mkUser (ID u) (CreatedAt u) (UpdatedAt u) (DeletedAt u) (Name u) (Email u)
         v (PasswordHash u) (Remember u) (RememberHash u) (Age u).
Definition set_PasswordHash (v : string) (u : User) : User :=
  mkUser (ID u) (CreatedAt u) (UpdatedAt u) (DeletedAt u) (Name u) (Email u)
         (Password u) v (Remember u) (RememberHash u) (Age u).
Definition set_Remember (v : string) (u : User) : User :=
  mkUser (ID u) (CreatedAt u) (UpdatedAt u) (DeletedAt u) (Name u) (Email u)
         (Password u) (PasswordHash u) v (RememberHash u) (Age u).
Definition set_RememberHash (v : string) (u : User) : User :=
  mkUser (ID u) (CreatedAt u) (UpdatedAt u) (DeletedAt u) (Name u) (Email u)
         (Password u) (PasswordHash u) (Remember u) v (Age u).

(** A [*User]: nil or a record. *)
Definition UserPtr := option User.

(** ** Events *)

(** The argument of a [Where] placeholder, and a [*gorm.DB] narrowed
    by [db.Where(cond, arg)]. *)
Inductive sqlarg : Type :=
| ArgUint (n : uint)
| ArgString (s : string).

Inductive query : Type :=
| Where (cond : string) (arg : sqlarg).

(** The methods of the [UserDB] interface.  A method that takes a
    [*User] answers with the record as the callee left it. *)
Inductive DBCall : Type -> Type :=
| DBByID (id : uint) : DBCall (UserPtr * error)
| DBByEmail (email : string) : DBCall (UserPtr * error)
| DBByRemember (token : string) : DBCall (UserPtr * error)
| DBCreate (user : User) : DBCall (User * error)
| DBUpdate (user : User) : DBCall (User * error)
| DBDelete (id : uint) : DBCall error
| DBClose : DBCall error
| DBAutoMigrate : DBCall error
| DBDestructiveReset : DBCall error.

Inductive Ev : Type -> Type :=
(** a method of the embedded [UserDB], the next layer of the chain *)
| Next {X} (c : DBCall X) : Ev X
(** [bcrypt.GenerateFromPassword(password, cost)] *)
| BcryptGenerate (password : string) (cost : Z) : Ev (string * error)
(** [bcrypt.CompareHashAndPassword(hashedPassword, password)] *)
| BcryptCompare (hashedPassword password : string) : Ev error
(** [rand.RememberToken()] *)
| RandRememberToken : Ev (string * error)
(** [db.First(dst).Error] on a narrowed [db], with [dst] as it is left *)
| GormFirst (db : query) (dst : User) : Ev (User * error)
(** [db.Create(user).Error] *)
| GormCreate (user : User) : Ev (User * error)
(** [db.Save(user).Error] *)
| GormSave (user : User) : Ev (User * error)
(** [db.Delete(user).Error] *)
| GormDelete (user : User) : Ev error
(** [db.Close()] *)
| GormClose : Ev error
(** [db.DropTableIfExists(&User{}).Error] *)
| GormDropTableIfExists : Ev error
(** [db.AutoMigrate(&User{}).Error] *)
| GormAutoMigrate : Ev error.

(** ** Programs *)

Inductive Prog (A : Type) : Type :=
| Ret (a : A)
| Panic
| Vis {X : Type} (e : Ev X) (k : X -> Prog A).

Arguments Ret {A} a.
Arguments Panic {A}.
Arguments Vis {A X} e k.

Fixpoint bind {A B} (p : Prog A) (f : A -> Prog B) : Prog B :=
  match p with
  | Ret a => f a
  | Panic => Panic
  | Vis e k => Vis e (fun x => bind (k x) f)
  end.

Definition call {X} (e : Ev X) : Prog X := Vis e Ret.

Declare Scope prog_scope.
Delimit Scope prog_scope with prog.
Notation "x <- p ;; q" := (bind p (fun x => q))
  (at level 61, p at next level, right associativity) : prog_scope.
Notation "' pat <- p ;; q" := (bind p (fun x => match x with pat => q end))
  (at level 61, pat pattern, p at next level, right associativity) : prog_scope.
Open Scope prog_scope.

(** One event that was issued, without its answer. *)
Inductive Call : Type :=
| MkCall {X : Type} (e : Ev X).

(** The outcome of running a program: a value or a run-time panic. *)
Inductive Outcome (A : Type) : Type :=
| Returned (a : A)
| Panicked.

Arguments Returned {A} a.
Arguments Panicked {A}.

(** Everything outside the package answers events and keeps a state of
    its own (the database, the entropy source). *)
Definition handler (W : Type) : Type := forall X, Ev X -> W -> X * W.

Fixpoint run {W A} (h : handler W) (p : Prog A) (w : W)
  : Outcome A * W * list Call :=
  match p with
  | Ret a => (Returned a, w, [])
  | Panic => (Panicked, w, [])
  | Vis e k =>
      let '(x, w1) := h _ e w in
      let '(o, w2, t) := run h (k x) w1 in
      (o, w2, MkCall e :: t)
  end.

(** An implementation of the [UserDB] interface: a program for each
    method. *)
Definition UserDB : Type := forall X, DBCall X -> Prog X.

(** Plugging an implementation in for the embedded [UserDB]. *)
Fixpoint link {A} (db : UserDB) (p : Prog A) : Prog A :=
  match p with
  | Ret a => Ret a
  | Panic => Panic
  | Vis e k =>
      match e in Ev X return (X -> Prog A) -> Prog A with
      | Next c => fun k => bind (db _ c) (fun x => link db (k x))
      | e' => fun k => Vis e' (fun x => link db (k x))
      end k
  end.

(** ** package hash *)

(** [hash.HMAC], taken as given: the keyed hasher, of which the model
    only needs the [Hash] method, a function of the input. *)
Record HMAC : Type := { Hash : string -> string }.

(** ** userService *)

(** [userService.Authenticate], which returns a user pointer and an
    error.  [us.ByEmail] is the method of the embedded
    [UserDB]; reading [foundUser.PasswordHash] through a nil pointer
    panics. *)
Definition Authenticate (email password : string) : Prog (UserPtr * error) :=
  '(foundUser, err) <- call (Next (DBByEmail email)) ;;
  match err with
  | Some _ => Ret (None, err)
  | None =>
      match foundUser with
      | None => Panic
      | Some found =>
          err <- call (BcryptCompare (PasswordHash found)
                                     (password ++ userPwPepper)) ;;
          match err with
          | None => Ret (foundUser, None)
          | Some ErrMismatchedHashAndPassword =>
              Ret (None, Some ErrInvalidPassword)
          | _ => Ret (None, err)
          end
      end
  end.

(** ** userValidator *)

(** [type userValidator struct { UserDB; hmac hash.HMAC }]; the embedded
    [UserDB] is reached through [Next]. *)
Record userValidator : Type := { hmac : HMAC }.

(** [userValFn], a function from a user pointer to an error: the record as the function
    leaves it, and the error. *)
Definition userValFn : Type := User -> Prog (User * error).

Fixpoint runUserValFns (user : User) (fns : list userValFn)
  : Prog (User * error) :=
  match fns with
  | [] => Ret (user, None)
  | fn :: fns' =>
      '(user, err) <- fn user ;;
      match err with
      | Some _ => Ret (user, err)
      | None => runUserValFns user fns'
      end
  end.

Definition bcryptPassword (uv : userValidator) : userValFn := fun user =>
  if (Password user =? "")%string then Ret (user, None)
  else
    let pwBytes := Password user ++ userPwPepper in
    '(hashedBytes, err) <- call (BcryptGenerate pwBytes DefaultCost) ;;
    match err with
    | Some _ => Ret (user, err)
    | None =>
        let user := set_PasswordHash hashedBytes user in
        let user := set_Password "" user in
        Ret (user, None)
    end.

Definition hmacRemember (uv : userValidator) : userValFn := fun user =>
  if (Remember user =? "")%string then Ret (user, None)
  else
    let user := set_RememberHash (Hash (hmac uv) (Remember user)) user in
    Ret (user, None).

Definition setRememberIfUnset (uv : userValidator) : userValFn := fun user =>
  if negb (Remember user =? "")%string then Ret (user, None)
  else
    '(token, err) <- call RandRememberToken ;;
    match err with
    | Some _ => Ret (user, err)
    | None =>
        let user := set_Remember token user in
        Ret (user, None)
    end.

Definition idGreaterThan (uv : userValidator) (n : uint) : userValFn :=
  fun user =>
    if (ID user <=? n)%N then Ret (user, Some ErrInvalidID)
    else Ret (user, None).

Module uv.

Definition ByRemember (uv : userValidator) (token : string)
  : Prog (UserPtr * error) :=
  let user := set_Remember token zeroUser in
  '(user, err) <- runUserValFns user [hmacRemember uv] ;;
  match err with
  | Some _ => Ret (None, err)
  | None => call (Next (DBByRemember (RememberHash user)))
  end.

Definition Create (uv : userValidator) (user : User) : Prog (User * error) :=
  '(user, err) <- runUserValFns user
                    [bcryptPassword uv;
                     setRememberIfUnset uv;
                     hmacRemember uv] ;;
  match err with
  | Some _ => Ret (user, err)
  | None => call (Next (DBCreate user))
  end.

Definition Update (uv : userValidator) (user : User) : Prog (User * error) :=
  '(user, err) <- runUserValFns user
                    [bcryptPassword uv;
                     hmacRemember uv] ;;
  match err with
  | Some _ => Ret (user, err)
  | None => call (Next (DBUpdate user))
  end.

Definition Delete (uv : userValidator) (id : uint) : Prog error :=
  let user := zeroUser in
  let user := set_ID id user in
  '(user, err) <- runUserValFns user [idGreaterThan uv 0%N] ;;
  match err with
  | Some _ => Ret err
  | None => call (Next (DBDelete id))
  end.

(** The validator as a [UserDB]: the four methods above, and the
    promoted methods of the embedded [UserDB] for the rest. *)
Definition methods (uv : userValidator) : UserDB := fun X c =>
  match c in DBCall X return Prog X with
  | DBByRemember token => ByRemember uv token
  | DBCreate user => Create uv user
  | DBUpdate user => Update uv user
  | DBDelete id => Delete uv id
  | c' => call (Next c')
  end.

End uv.

(** ** userGorm *)

(** [first(db, dst)]: the first row of the narrowed [db] goes to [dst];
    gorm's record-not-found becomes [ErrNotFound]. *)
Definition first (db : query) (dst : User) : Prog (User * error) :=
  '(dst, err) <- call (GormFirst db dst) ;;
  match err with
  | Some ErrRecordNotFound => Ret (dst, Some ErrNotFound)
  | _ => Ret (dst, err)
  end.

Module ug.

Definition Close : Prog error := call GormClose.

Definition ByID (id : uint) : Prog (UserPtr * error) :=
  let user := zeroUser in
  let db := Where "id = ?" (ArgUint id) in
  '(user, err) <- first db user ;;
  match err with
  | Some _ => Ret (None, err)
  | None => Ret (Some user, err)
  end.

Definition ByEmail (email : string) : Prog (UserPtr * error) :=
  let user := zeroUser in
  let db := Where "email = ?" (ArgString email) in
  '(user, err) <- first db user ;;
  Ret (Some user, err).

Definition ByRemember (rememberHash : string) : Prog (UserPtr * error) :=
  let user := zeroUser in
  '(user, err) <- first (Where "remember_hash = ?" (ArgString rememberHash))
                        user ;;
  match err with
  | Some _ => Ret (None, err)
  | None => Ret (Some user, None)
  end.

Definition AutoMigrate : Prog error :=
  err <- call GormAutoMigrate ;;
  match err with
  | Some _ => Ret err
  | None => Ret None
  end.

Definition DestructiveReset : Prog error :=
  err <- call GormDropTableIfExists ;;
  match err with
  | Some _ => Ret err
  | None => AutoMigrate
  end.

Definition Create (user : User) : Prog (User * error) :=
  call (GormCreate user).

Definition Update (user : User) : Prog (User * error) :=
  call (GormSave user).

Definition Delete (id : uint) : Prog error :=
  let user := set_ID id zeroUser in
  call (GormDelete user).

Definition methods : UserDB := fun X c =>
  match c in DBCall X return Prog X with
  | DBByID id => ByID id
  | DBByEmail email => ByEmail email
  | DBByRemember rememberHash => ByRemember rememberHash
  | DBCreate user => Create user
  | DBUpdate user => Update user
  | DBDelete id => Delete id
  | DBClose => Close
  | DBAutoMigrate => AutoMigrate
  | DBDestructiveReset => DestructiveReset
  end.

End ug.

(** ** NewUserService *)

(** The chain that [NewUserService] builds: a [userService] whose
    [UserDB] is a [userValidator] whose [UserDB] is the [userGorm].
    [NewHMAC] is [hash.NewHMAC]; a program of the service runs with both
    layers plugged in. *)
Definition NewUserService (NewHMAC : string -> HMAC) {A} (p : Prog A)
  : Prog A :=
  let uv := {| hmac := NewHMAC hmacSecretKey |} in
  link ug.methods (link (uv.methods uv) p).

(** ** Observing a run *)

Definition outcome {W A} (r : Outcome A * W * list Call) : Outcome A :=
  fst (fst r).
Definition world {W A} (r : Outcome A * W * list Call) : W := snd (fst r).
Definition trace {W A} (r : Outcome A * W * list Call) : list Call := snd r.

(** Running [q] after [p] returned: the combined run. *)
Definition and_then {W A B} (r : Outcome A * W * list Call)
    (q : A -> W -> Outcome B * W * list Call) : Outcome B * W * list Call :=
  match r with
  | (Returned a, w1, t1) =>
      let '(o, w2, t2) := q a w1 in (o, w2, (t1 ++ t2)%list)
  | (Panicked, w1, t1) => (Panicked, w1, t1)
  end.

(** The calls that reach a store: the next [UserDB] or gorm. *)
Definition touches_store (c : Call) : bool :=
  match c with
  | MkCall e =>
      match e with
      | BcryptGenerate _ _ | BcryptCompare _ _ | RandRememberToken => false
      | _ => true
      end
  end.

Definition store_calls (t : list Call) : list Call := filter touches_store t.

(** The calls to the random token generator. *)
Definition mints (c : Call) : bool :=
  match c with
  | MkCall e => match e with RandRememberToken => true | _ => false end
  end.

(** The records handed to [Create], to [Update], the hashes handed to
    [ByRemember] and the ids handed to [Delete] of the next [UserDB]. *)
Definition created (c : Call) : option User :=
  match c with
  | MkCall e =>
      match e with
      | Next c' => match c' with DBCreate u => Some u | _ => None end
      | _ => None
      end
  end.

Definition updated (c : Call) : option User :=
  match c with
  | MkCall e =>
      match e with
      | Next c' => match c' with DBUpdate u => Some u | _ => None end
      | _ => None
      end
  end.

Definition looked_up_by_remember (c : Call) : option string :=
  match c with
  | MkCall e =>
      match e with
      | Next c' => match c' with DBByRemember s => Some s | _ => None end
      | _ => None
      end
  end.

Fixpoint collect {B} (f : Call -> option B) (t : list Call) : list B :=
  match t with
  | [] => []
  | c :: t' =>
      match f c with
      | Some b => b :: collect f t'
      | None => collect f t'
      end
  end.


Definition remember_token_nonempty {W} (h : handler W) : Prop :=
  forall w token w1,
    h _ RandRememberToken w = ((token, None), w1) -> token <> "".


(** ** The validation steps of Create, as the specification words them *)

Module Spec.

(** (1) if a plaintext password is present, hash it with the pepper and
    clear the plaintext, otherwise do nothing; (2) if no plaintext
    remember token is present, mint one; (3) hash the remember token
    that is now present and store the digest; a failing step ends the
    operation with its error; then the store's Create. *)
Definition Create (uv : userValidator) (user : User) : Prog (User * error) :=
  '(user, err) <-
     (match Password user with
      | EmptyString => Ret (user, None)
      | plaintext =>
          '(digest, err) <-
             call (BcryptGenerate (plaintext ++ userPwPepper) DefaultCost) ;;
          match err with
          | Some _ => Ret (user, err)
          | None => Ret (set_Password "" (set_PasswordHash digest user), None)
          end
      end) ;;
  match err with
  | Some _ => Ret (user, err)
  | None =>
      '(user, err) <-
         (match Remember user with
          | EmptyString =>
              '(token, err) <- call RandRememberToken ;;
              match err with
              | Some _ => Ret (user, err)
              | None => Ret (set_Remember token user, None)
              end
          | _ => Ret (user, None)
          end) ;;
      match err with
      | Some _ => Ret (user, err)
      | None =>
          let digest := Hash (hmac uv) (Remember user) in
          call (Next (DBCreate (set_RememberHash digest user)))
      end
  end.

End Spec.

(** ** An environment to run the code in

    A table of rows in memory behind the gorm calls, a list of tokens
    still to be drawn behind the random generator, and stand-ins for
    bcrypt, HMAC and the token encoding that only tag their input. *)

Module Demo.

Record World : Type := {
  rows : list User;
  nextID : uint;
  entropy : list string
}.

Definition with_rows (rs : list User) (w : World) : World :=
  {| rows := rs; nextID := nextID w; entropy := entropy w |}.

Definition selects (db : query) (u : User) : bool :=
  match db with
  | Where cond (ArgUint n) => (cond =? "id = ?")%string && (ID u =? n)%N
  | Where cond (ArgString s) =>
      ((cond =? "email = ?")%string && (Email u =? s)%string)
      || ((cond =? "remember_hash = ?")%string
          && (RememberHash u =? s)%string)
  end.

Definition collides (u r : User) : bool :=
  (Email r =? Email u)%string || (RememberHash r =? RememberHash u)%string.

(** The row as the table keeps it: the fields tagged [gorm:"-"] are
    not stored. *)
Definition stored (u : User) : User := set_Password "" (set_Remember "" u).

Definition toy_bcrypt (password : string) : string := "$2a$10$" ++ password.

Definition toy_hmac (key : string) : HMAC :=
  {| Hash := fun input => "hmac(" ++ key ++ "," ++ input ++ ")" |}.

Definition toy_encode (bytes : string) : string := "b64:" ++ bytes.

Definition no_next_layer : error := Some (ErrOther "no next layer").

(** gorm, bcrypt and the random generator; there is no next [UserDB]
    below gorm. *)
Definition base : handler World := fun X e =>
  match e in Ev X return World -> X * World with
  | Next c => fun w =>
      (match c in DBCall X return X with
       | DBByID _ | DBByEmail _ | DBByRemember _ => (None, no_next_layer)
       | DBCreate u | DBUpdate u => (u, no_next_layer)
       | _ => no_next_layer
       end, w)
  | BcryptGenerate password _ => fun w => ((toy_bcrypt password, None), w)
  | BcryptCompare hashed password => fun w =>
      (if (hashed =? "")%string then Some ErrHashTooShort
       else if (hashed =? toy_bcrypt password)%string then None
       else Some ErrMismatchedHashAndPassword, w)
  | RandRememberToken => fun w =>
      match entropy w with
      | [] => (("", Some (ErrOther "entropy source unavailable")), w)
      | bytes :: rest =>
          ((toy_encode bytes, None),
           {| rows := rows w; nextID := nextID w; entropy := rest |})
      end
  | GormFirst db dst => fun w =>
      match find (selects db) (rows w) with
      | Some row => ((row, None), w)
      | None => ((dst, Some ErrRecordNotFound), w)
      end
  | GormCreate u => fun w =>
      if existsb (collides u) (rows w)
      then ((u, Some (ErrOther "pq: duplicate key value")), w)
      else
        let u' := set_ID (nextID w) u in
        ((u', None),
         {| rows := (rows w ++ [stored u'])%list;
            nextID := N.succ (nextID w);
            entropy := entropy w |})
  | GormSave u => fun w =>
      ((u, None),
       with_rows (filter (fun r => negb (ID r =? ID u)%N) (rows w)
                  ++ [stored u])%list w)
  | GormDelete u => fun w =>
      (None, with_rows (filter (fun r => negb (ID r =? ID u)%N) (rows w)) w)
  | GormClose => fun w => (None, w)
  | GormDropTableIfExists => fun w => (None, with_rows [] w)
  | GormAutoMigrate => fun w => (None, w)
  end.

(** The same, with the [userGorm] as the next [UserDB]. *)
Definition env : handler World := fun X e =>
  match e in Ev X return World -> X * World with
  | Next c => fun w =>
      match run base (ug.methods _ c) w with
      | (Returned x, w1, _) => (x, w1)
      | (Panicked, w1, _) => (fst (base _ (Next c) w), w1)
      end
  | e' => base _ e'
  end.

Definition uv : userValidator := {| hmac := toy_hmac hmacSecretKey |}.

Definition empty : World :=
  {| rows := []; nextID := 1%N; entropy := ["bytes-1"; "bytes-2"] |}.

(** The user that [main] creates, without a password. *)
Definition michael : User :=
  mkUser 0%N 0%Z 0%Z None "Michael Scott" "michael@dundermifflin.com"
         "" "" "" "" 0%Z.

Definition pam : User :=
  mkUser 0%N 0%Z 0%Z None "Pam Beesly" "pam@dundermifflin.com"
         "sketchbook" "" "" "" 0%Z.

(** [pam] as the table keeps her after she signed up, and the world
    then. *)
Definition pam_row : User :=
  mkUser 1%N 0%Z 0%Z None "Pam Beesly" "pam@dundermifflin.com"
         "" "$2a$10$sketchbookrandom-string-as-pepper"
         "" "hmac(secret-hmac-key,b64:bytes-1)" 0%Z.

Definition with_pam : World :=
  {| rows := [pam_row]; nextID := 2%N; entropy := ["bytes-2"] |}.

(** [michael] as the table keeps him after [main] created him. *)
Definition michael_row : User :=
  mkUser 1%N 0%Z 0%Z None "Michael Scott" "michael@dundermifflin.com"
         "" "" "" "hmac(secret-hmac-key,b64:bytes-1)" 0%Z.

Definition with_michael : World :=
  {| rows := [michael_row]; nextID := 2%N; entropy := ["bytes-2"] |}.

(** [pam] as Create hands her to the store. *)
Definition pam_validated : User :=
  mkUser 0%N 0%Z 0%Z None "Pam Beesly" "pam@dundermifflin.com"
         "" "$2a$10$sketchbookrandom-string-as-pepper"
         "b64:bytes-1" "hmac(secret-hmac-key,b64:bytes-1)" 0%Z.

Definition outage : error := Some (ErrOther "service unavailable").

(** A day on which every library fails: gorm, bcrypt and the random
    generator answer with an error and change nothing. *)
Definition down : handler World := fun X e =>
  match e in Ev X return World -> X * World with
  | Next c => base _ (Next c)
  | BcryptGenerate _ _ => fun w => (("", outage), w)
  | BcryptCompare _ _ => fun w => (outage, w)
  | RandRememberToken => fun w => (("", outage), w)
  | GormFirst _ dst => fun w => ((dst, outage), w)
  | GormCreate u | GormSave u => fun w => ((u, outage), w)
  | GormDelete _ | GormClose | GormDropTableIfExists | GormAutoMigrate =>
      fun w => (outage, w)
  end.

End Demo.

(** ** More to observe in a run *)

(** The records handed to gorm's [Delete] and [Create]. *)
Definition gorm_deleted (c : Call) : option User :=
  match c with
  | MkCall e => match e with GormDelete u => Some u | _ => None end
  end.

Definition gorm_created (c : Call) : option User :=
  match c with
  | MkCall e => match e with GormCreate u => Some u | _ => None end
  end.

(** The calls to [bcrypt.CompareHashAndPassword]. *)
Definition compares (c : Call) : bool :=
  match c with
  | MkCall e => match e with BcryptCompare _ _ => true | _ => false end
  end.

(** bcrypt accepts, at any later time, the password that it hashed. *)
Definition bcrypt_consistent {W} (h : handler W) : Prop :=
  forall password cost w hashed w1 w',
    h _ (BcryptGenerate password cost) w = ((hashed, None), w1) ->
    fst (h _ (BcryptCompare hashed password) w') = None.

(** What [runUserValFns] goes on to do once some of its functions have
    returned [r]: stop on an error, run the rest otherwise. *)
Definition continue_with {W} (h : handler W) (fns : list userValFn)
    (r : User * error) (w : W) : Outcome (User * error) * W * list Call :=
  match snd r with
  | Some _ => (Returned r, w, [])
  | None => run h (runUserValFns (fst r) fns) w
  end.

(** A method of the service that [NewUserService] builds, reached
    through the methods that [userService] promotes. *)
Definition service (NewHMAC : string -> HMAC) {X} (c : DBCall X) : Prog X :=
  NewUserService NewHMAC (call (Next c)).

(** * Properties *)

(** ** Running programs *)

Section Running.

Context {W : Type} (h : handler W).

Lemma run_bind {A B} (p : Prog A) (f : A -> Prog B) (w : W) :
  run h (bind p f) w = and_then (run h p w) (fun a => run h (f a)).
Proof.
  revert w. induction p as [a | | X e k IH]; intros w; simpl.
  - destruct (run h (f a) w) as [[o w2] t]. reflexivity.
  - reflexivity.
  - destruct (h X e w) as [x w1]. rewrite IH.
    destruct (run h (k x) w1) as [[[a |] w2] t]; simpl; [| reflexivity].
    destruct (run h (f a) w2) as [[o w3] t']. reflexivity.
Qed.

Lemma run_call {X} (e : Ev X) (w : W) :
  run h (call e) w
  = (Returned (fst (h _ e w)), snd (h _ e w), [MkCall e]).
Proof. unfold call. simpl. destruct (h X e w). reflexivity. Qed.

Lemma run_Ret {A} (a : A) (w : W) : run h (Ret a) w = (Returned a, w, []).
Proof. reflexivity. Qed.

End Running.

Lemma eqb_empty_false (s : string) : s <> "" -> (s =? "")%string = false.
Proof. intros Hs. apply String.eqb_neq. exact Hs. Qed.

(** Answer the next event of the goal by naming what the handler
    returns for it. *)
Ltac answer h :=
  match goal with
  | |- context [?f ?X ?e ?w] =>
      constr_eq f h;
      let x := fresh "x" in
      let w1 := fresh "w" in
      let E := fresh "E" in
      destruct (f X e w) as [x w1] eqn:E; simpl
  end.

(** Run a program of the validator to its end, by cases on every
    answer of the handler and on every test for the empty string. *)
Ltac crunch h :=
  repeat (simpl;
          match goal with
          | |- context [?f ?X ?e ?w] =>
              constr_eq f h; destruct (f X e w) as [? ?] eqn:?
          | x : (_ * _)%type |- _ => destruct x
          | x : error |- _ => destruct x
          | |- context [(?s =? "")%string] => destruct (String.eqb_spec s "")
          end);
  simpl.

(** Take a membership in a short explicit list apart. *)
Ltac members :=
  repeat match goal with
         | H : _ \/ _ |- _ => destruct H
         | H : False |- _ => destruct H
         | H : In _ _ |- _ => simpl in H
         end.

(** ** Authenticate *)

Section AuthenticateProperties.

Context {W : Type} (h : handler W).

(** C1.  Authenticate returns the found user and a nil error when the
    lookup by email succeeds and bcrypt accepts password + pepper
    against the stored hash; ErrInvalidPassword when bcrypt reports a
    mismatch; ErrNotFound when the lookup reports that no record has
    the email (also through the whole chain, where gorm reports that
    no row was found); and any other error of the lookup or of bcrypt
    as it is. *)
Theorem Authenticate_results (email password : string) (w : W) :
  (forall found w1 w2,
      h _ (Next (DBByEmail email)) w = ((Some found, None), w1) ->
      h _ (BcryptCompare (PasswordHash found) (password ++ userPwPepper)) w1
      = (None, w2) ->
      outcome (run h (Authenticate email password) w)
      = Returned (Some found, None))
  /\ (forall found w1 w2,
      h _ (Next (DBByEmail email)) w = ((Some found, None), w1) ->
      h _ (BcryptCompare (PasswordHash found) (password ++ userPwPepper)) w1
      = (Some ErrMismatchedHashAndPassword, w2) ->
      outcome (run h (Authenticate email password) w)
      = Returned (None, Some ErrInvalidPassword))
  /\ (forall foundUser w1,
      h _ (Next (DBByEmail email)) w = ((foundUser, Some ErrNotFound), w1) ->
      outcome (run h (Authenticate email password) w)
      = Returned (None, Some ErrNotFound))
  /\ (forall NewHMAC dst w1,
      h _ (GormFirst (Where "email = ?" (ArgString email)) zeroUser) w
      = ((dst, Some ErrRecordNotFound), w1) ->
      outcome (run h (NewUserService NewHMAC (Authenticate email password)) w)
      = Returned (None, Some ErrNotFound))
  /\ (forall foundUser e w1,
      h _ (Next (DBByEmail email)) w = ((foundUser, Some e), w1) ->
      outcome (run h (Authenticate email password) w)
      = Returned (None, Some e))
  /\ (forall found e w1 w2,
      h _ (Next (DBByEmail email)) w = ((Some found, None), w1) ->
      h _ (BcryptCompare (PasswordHash found) (password ++ userPwPepper)) w1
      = (Some e, w2) ->
      e <> ErrMismatchedHashAndPassword ->
      outcome (run h (Authenticate email password) w)
      = Returned (None, Some e)).
Proof.
  repeat split.
  - intros found w1 w2 Hlookup Hcompare.
    unfold Authenticate. simpl. rewrite Hlookup. simpl.
    rewrite Hcompare. reflexivity.
  - intros found w1 w2 Hlookup Hcompare.
    unfold Authenticate. simpl. rewrite Hlookup. simpl.
    rewrite Hcompare. reflexivity.
  - intros foundUser w1 Hlookup.
    unfold Authenticate. simpl. rewrite Hlookup. reflexivity.
  - intros NewHMAC dst w1 Hfirst.
    unfold NewUserService, Authenticate. simpl. rewrite Hfirst. reflexivity.
  - intros foundUser e w1 Hlookup.
    unfold Authenticate. simpl. rewrite Hlookup. reflexivity.
  - intros found e w1 w2 Hlookup Hcompare Hother.
    unfold Authenticate. simpl. rewrite Hlookup. simpl.
    rewrite Hcompare. destruct e; try reflexivity. congruence.
Qed.

(** C10.  Authenticate returns a user exactly when it returns a nil
    error, and the only call it makes to the store is the lookup by
    email.  With an arbitrary [UserDB] below, the one way not to
    return is a lookup that hands back neither a user nor an error
    (the nil pointer is read); the [userGorm] never does that, so the
    whole chain always returns, and its only call to gorm is the
    [First] of the email. *)
Theorem Authenticate_user_iff_no_error (email password : string) (w : W) :
  let r := run h (Authenticate email password) w in
  store_calls (trace r) = [MkCall (Next (DBByEmail email))]
  /\ (forall user err,
         outcome r = Returned (user, err) -> (user <> None <-> err = None))
  /\ (outcome r = Panicked
      <-> fst (h _ (Next (DBByEmail email)) w) = (None, None))
  /\ (forall NewHMAC,
         let r' :=
           run h (NewUserService NewHMAC (Authenticate email password)) w in
         store_calls (trace r')
         = [MkCall (GormFirst (Where "email = ?" (ArgString email)) zeroUser)]
         /\ exists user err,
             outcome r' = Returned (user, err)
             /\ (user <> None <-> err = None)).
Proof.
  cbv zeta. unfold Authenticate, NewUserService, outcome, trace, store_calls.
  simpl.
  split; [| split; [| split; [| intros NewHMAC; split]]].
  - answer h. destruct x as [[found |] [e |]]; simpl; try reflexivity.
    answer h. destruct x as [[] |]; reflexivity.
  - intros user err. answer h.
    destruct x as [[found |] [e |]]; simpl;
      try (intros [= <- <-]; split; congruence); try discriminate.
    answer h.
    destruct x as [[] |]; simpl; intros [= <- <-]; split; congruence.
  - answer h. destruct x as [[found |] [e |]]; simpl;
      try (split; intros; first [reflexivity | discriminate]).
    answer h. destruct x as [[] |]; simpl; split; discriminate.
  - answer h. destruct x as [dst [e |]]; simpl.
    + destruct e; reflexivity.
    + answer h. destruct x as [[] |]; reflexivity.
  - answer h. destruct x as [dst [e |]]; simpl.
    + destruct e; eexists; eexists; (split; [reflexivity |]);
        split; congruence.
    + answer h.
      destruct x as [[] |]; eexists; eexists; (split; [reflexivity |]);
        split; congruence.
Qed.

End AuthenticateProperties.

(** ** The validation steps *)

Section StepProperties.

Context {W : Type} (h : handler W) (uv : userValidator).

Lemma run_bcryptPassword_absent (user : User) (w : W) :
  Password user = "" ->
  run h (bcryptPassword uv user) w = (Returned (user, None), w, []).
Proof. intros HP. unfold bcryptPassword. rewrite HP. reflexivity. Qed.

Lemma run_bcryptPassword_present (user : User) (w : W) hashed err w1 :
  Password user <> "" ->
  h _ (BcryptGenerate (Password user ++ userPwPepper) DefaultCost) w
  = ((hashed, err), w1) ->
  run h (bcryptPassword uv user) w
  = (Returned (match err with
               | Some _ => user
               | None => set_Password "" (set_PasswordHash hashed user)
               end, err),
     w1,
     [MkCall (BcryptGenerate (Password user ++ userPwPepper) DefaultCost)]).
Proof.
  intros HP Hgen. unfold bcryptPassword.
  rewrite (eqb_empty_false _ HP). simpl. rewrite Hgen.
  destruct err; reflexivity.
Qed.

Lemma run_setRememberIfUnset_present (user : User) (w : W) :
  Remember user <> "" ->
  run h (setRememberIfUnset uv user) w = (Returned (user, None), w, []).
Proof.
  intros HR. unfold setRememberIfUnset.
  rewrite (eqb_empty_false _ HR). reflexivity.
Qed.

Lemma run_setRememberIfUnset_absent (user : User) (w : W) token err w1 :
  Remember user = "" ->
  h _ RandRememberToken w = ((token, err), w1) ->
  run h (setRememberIfUnset uv user) w
  = (Returned (match err with
               | Some _ => user
               | None => set_Remember token user
               end, err),
     w1, [MkCall RandRememberToken]).
Proof.
  intros HR Hrand. unfold setRememberIfUnset. rewrite HR. simpl.
  rewrite Hrand. destruct err; reflexivity.
Qed.

Lemma run_hmacRemember_absent (user : User) (w : W) :
  Remember user = "" ->
  run h (hmacRemember uv user) w = (Returned (user, None), w, []).
Proof. intros HR. unfold hmacRemember. rewrite HR. reflexivity. Qed.


(** The loop of [runUserValFns], one function at a time. *)
Lemma run_runUserValFns_cons (user : User) fn fns (w : W) :
  run h (runUserValFns user (fn :: fns)) w
  = and_then (run h (fn user) w)
      (fun r w1 =>
         match snd r with
         | Some _ => (Returned r, w1, [])
         | None => run h (runUserValFns (fst r) fns) w1
         end).
Proof.
  simpl. rewrite run_bind.
  destruct (run h (fn user) w) as [[[[u [e |]] |] w1] t]; reflexivity.
Qed.

End StepProperties.

(** A negative [int] converts to an [uint] in the upper half of the
    range. *)
Lemma uint_of_negative_positive (z : Z) :
  (- 2 ^ (uint_bits - 1) <= z < 0)%Z -> (0 < uint_of_int z)%N.
Proof.
  unfold uint_of_int, uint_bits. intros Hz.
  change (2 ^ (64 - 1))%Z with 9223372036854775808%Z in Hz.
  change (2 ^ 64)%Z with 18446744073709551616%Z.
  rewrite <- (Z.mod_add z 1 18446744073709551616) by lia.
  rewrite Z.mod_small by lia. lia.
Qed.

(** ** Create, Update, Delete and ByRemember of the validator *)

Section ValidatorProperties.

Context {W : Type} (h : handler W) (uv : userValidator).

(** C2.  Create is the three steps of the specification in their
    order: hash the password if one is present, mint a remember token
    only if none is present, hash the remember token that is then
    present; the first error ends the operation before any later step
    and before the store, and the store's Create is called exactly when
    all three steps passed.  (A token generator that succeeds hands
    back a token that is not empty.) *)
Theorem Create_three_steps_in_order (user : User) (w : W) :
  remember_token_nonempty h ->
  run h (uv.Create uv user) w = run h (Spec.Create uv user) w.
Proof.
  intros Hrand.
  unfold uv.Create, Spec.Create, bcryptPassword, setRememberIfUnset,
    hmacRemember.
  simpl.
  destruct (Password user) as [| c s] eqn:HP; simpl.
  - destruct (Remember user) as [| c' s'] eqn:HR; simpl.
    + answer h. destruct x as [token [e |]]; simpl; [reflexivity |].
      rewrite (eqb_empty_false token (Hrand _ _ _ E)). simpl.
      reflexivity.
    + rewrite HR. reflexivity.
  - answer h. destruct x as [hashed [e |]]; simpl; [reflexivity |].
    destruct (Remember user) as [| c' s'] eqn:HR; simpl.
    + answer h. destruct x as [token [e |]]; simpl; [reflexivity |].
      rewrite (eqb_empty_false token (Hrand _ _ _ E0)). simpl.
      reflexivity.
    + rewrite HR. reflexivity.
Qed.

(** C3.  On a record with a plaintext password, the password step asks
    bcrypt for the hash of password + pepper and, on success, leaves
    that hash in PasswordHash and the empty string in Password; on a
    record without one it changes nothing and calls nothing.  Create
    and Update run it first, so every record that they hand to the
    store has an empty Password, the new hash if a password was given
    and the old PasswordHash if none was. *)
Theorem bcryptPassword_hashes_and_clears (user : User) (w : W) :
  (Password user <> "" ->
   forall hashed w1,
     h _ (BcryptGenerate (Password user ++ userPwPepper) DefaultCost) w
     = ((hashed, None), w1) ->
     run h (bcryptPassword uv user) w
     = (Returned (set_Password "" (set_PasswordHash hashed user), None), w1,
        [MkCall (BcryptGenerate (Password user ++ userPwPepper) DefaultCost)])
     /\ PasswordHash (set_Password "" (set_PasswordHash hashed user)) = hashed
     /\ Password (set_Password "" (set_PasswordHash hashed user)) = "")
  /\ (Password user = "" ->
      run h (bcryptPassword uv user) w = (Returned (user, None), w, []))
  /\ (forall p,
         In p (collect created (trace (run h (uv.Create uv user) w))) ->
         Password p = ""
         /\ (Password user = "" -> PasswordHash p = PasswordHash user)
         /\ (Password user <> "" ->
             PasswordHash p
             = fst (fst (h _ (BcryptGenerate (Password user ++ userPwPepper)
                                             DefaultCost) w))))
  /\ (forall p,
         In p (collect updated (trace (run h (uv.Update uv user) w))) ->
         Password p = ""
         /\ (Password user = "" -> PasswordHash p = PasswordHash user)
         /\ (Password user <> "" ->
             PasswordHash p
             = fst (fst (h _ (BcryptGenerate (Password user ++ userPwPepper)
                                             DefaultCost) w)))).
Proof.
  split; [| split; [| split]].
  - intros HP hashed w1 Hgen.
    rewrite (run_bcryptPassword_present h uv user w hashed None w1 HP Hgen).
    repeat split.
  - apply run_bcryptPassword_absent.
  - intros p.
    unfold uv.Create, bcryptPassword, setRememberIfUnset, hmacRemember, trace.
    crunch h; intros Hin; members; try congruence; subst p; simpl;
      repeat split; intros; congruence.
  - intros p.
    unfold uv.Update, bcryptPassword, hmacRemember, trace.
    crunch h; intros Hin; members; try congruence; subst p; simpl;
      repeat split; intros; congruence.
Qed.



(** C6.  On a record without a plaintext remember token, Update never
    calls the token generator, and the record that it hands to the
    store's Update, once the password step has passed, has the
    RememberHash it came with. *)
Theorem Update_never_mints (user : User) (w : W) :
  Remember user = "" ->
  let r := run h (uv.Update uv user) w in
  existsb mints (trace r) = false
  /\ (forall p,
         In p (collect updated (trace r)) ->
         RememberHash p = RememberHash user /\ Remember p = "")
  /\ (forall user1 w1 t1,
         run h (bcryptPassword uv user) w = (Returned (user1, None), w1, t1) ->
         collect updated (trace r) = [user1]
         /\ outcome r = Returned (fst (h _ (Next (DBUpdate user1)) w1))).
Proof.
  intros HR. cbv zeta.
  unfold uv.Update, bcryptPassword, hmacRemember, outcome, trace.
  split; [| split].
  - crunch h; try contradiction; reflexivity.
  - intros p. crunch h; try contradiction; intros Hin; members; subst p;
      simpl; split; congruence.
  - intros user1 w1 t1.
    crunch h; try contradiction; intros Hstep; inversion Hstep; subst; simpl;
      split; congruence.
Qed.

(** C7, as the code has it.  Delete returns ErrInvalidID, without a
    call to the store, when the id is 0, the only unsigned value that
    is not above 0; for every id above 0 it is the store's Delete of
    that id, and the ids that come from converting a negative number
    are among those. *)
Theorem Delete_guard (id : uint) (w : W) :
  ((id <= 0)%N ->
   run h (uv.Delete uv id) w = (Returned (Some ErrInvalidID), w, []))
  /\ ((0 < id)%N ->
      run h (uv.Delete uv id) w = run h (call (Next (DBDelete id))) w)
  /\ (forall z,
         (- 2 ^ (uint_bits - 1) <= z < 0)%Z ->
         run h (uv.Delete uv (uint_of_int z)) w
         = run h (call (Next (DBDelete (uint_of_int z)))) w).
Proof.
  assert (Hpos : forall n, (0 < n)%N ->
            run h (uv.Delete uv n) w = run h (call (Next (DBDelete n))) w).
  { intros n Hn. unfold uv.Delete, idGreaterThan. simpl.
    destruct (N.leb_spec n 0); [lia | reflexivity]. }
  split; [| split].
  - intros Hid. unfold uv.Delete, idGreaterThan. simpl.
    destruct (N.leb_spec id 0); [reflexivity | lia].
  - apply Hpos.
  - intros z Hz. apply Hpos. apply uint_of_negative_positive. exact Hz.
Qed.

(** C8, as the code has it.  For a token that is not empty, ByRemember
    is the store's ByRemember of the HMAC digest of the token; for the
    empty token the hashing step is skipped and the store is asked for
    the empty string. *)
Theorem ByRemember_hashes_token (token : string) (w : W) :
  (token <> "" ->
   run h (uv.ByRemember uv token) w
   = run h (call (Next (DBByRemember (Hash (hmac uv) token)))) w)
  /\ (token = "" ->
      run h (uv.ByRemember uv token) w
      = run h (call (Next (DBByRemember ""))) w).
Proof.
  unfold uv.ByRemember, hmacRemember. simpl.
  split; intros Htoken.
  - rewrite (eqb_empty_false _ Htoken). reflexivity.
  - rewrite Htoken. reflexivity.
Qed.

(** C9.  The id is unsigned, so the guard of Delete rejects 0 and
    nothing else: for every other id, and so for every id that comes
    from converting a negative number, Delete is the store's Delete of
    that id. *)
Theorem Delete_rejects_only_zero (id : uint) (w : W) :
  (id <> 0%N ->
   run h (uv.Delete uv id) w = run h (call (Next (DBDelete id))) w)
  /\ (run h (uv.Delete uv id) w = (Returned (Some ErrInvalidID), w, [])
      <-> id = 0%N)
  /\ (forall z,
         (- 2 ^ (uint_bits - 1) <= z < 0)%Z ->
         uint_of_int z <> 0%N
         /\ run h (uv.Delete uv (uint_of_int z)) w
            = run h (call (Next (DBDelete (uint_of_int z)))) w).
Proof.
  assert (Hnz : forall n, n <> 0%N ->
            run h (uv.Delete uv n) w = run h (call (Next (DBDelete n))) w).
  { intros n Hn. unfold uv.Delete, idGreaterThan. simpl.
    destruct (N.leb_spec n 0); [lia | reflexivity]. }
  split; [exact (Hnz id) | split].
  - split.
    + intros Hrun. destruct (N.eq_dec id 0) as [Hz | Hz]; [exact Hz |].
      rewrite (Hnz id Hz), run_call in Hrun. discriminate.
    + intros ->. reflexivity.
  - intros z Hz.
    pose proof (uint_of_negative_positive z Hz) as Hpos.
    split; [lia | apply Hnz; lia].
Qed.

End ValidatorProperties.

(** ** Runs in the environment of [Demo] *)

Example Demo_pam_signs_up :
  world (run Demo.env (uv.Create Demo.uv Demo.pam) Demo.empty) = Demo.with_pam.
Proof. reflexivity. Qed.

Example Demo_michael_is_created :
  world (run Demo.env (uv.Create Demo.uv Demo.michael) Demo.empty)
  = Demo.with_michael.
Proof. reflexivity. Qed.


Lemma Demo_remember_token_nonempty : remember_token_nonempty Demo.env.
Proof.
  intros w token w1. simpl.
  destruct (Demo.entropy w) as [| bytes rest]; intros [= <-]; discriminate.
Defined.


Lemma Authenticate_results_witness :
  outcome (run Demo.env (Authenticate "pam@dundermifflin.com" "sketchbook")
               Demo.with_pam)
  = Returned (Some Demo.pam_row, None)
  /\ outcome (run Demo.env (Authenticate "pam@dundermifflin.com" "sketchbookx")
                  Demo.with_pam)
     = Returned (None, Some ErrInvalidPassword)
  /\ outcome (run Demo.env (Authenticate "nobody@example.com" "anything")
                  Demo.with_pam)
     = Returned (None, Some ErrNotFound)
  /\ outcome (run Demo.base
                  (NewUserService Demo.toy_hmac
                     (Authenticate "nobody@example.com" "anything"))
                  Demo.with_pam)
     = Returned (None, Some ErrNotFound)
  /\ outcome (run Demo.env (Authenticate "michael@dundermifflin.com" "anything")
                  Demo.with_michael)
     = Returned (None, Some ErrHashTooShort).
Proof.
  split; [| split; [| split; [| split]]].
  - destruct (Authenticate_results Demo.env
                "pam@dundermifflin.com" "sketchbook" Demo.with_pam)
      as (Hok & _).
    eapply Hok; reflexivity.
  - destruct (Authenticate_results Demo.env
                "pam@dundermifflin.com" "sketchbookx" Demo.with_pam)
      as (_ & Hmismatch & _).
    eapply Hmismatch; reflexivity.
  - destruct (Authenticate_results Demo.env
                "nobody@example.com" "anything" Demo.with_pam)
      as (_ & _ & Hnotfound & _ & Hlookup & _).
    pose proof (Hlookup (Some zeroUser) ErrNotFound Demo.with_pam eq_refl).
    eapply Hnotfound; reflexivity.
  - destruct (Authenticate_results Demo.base
                "nobody@example.com" "anything" Demo.with_pam)
      as (_ & _ & _ & Hchain & _).
    eapply Hchain; reflexivity.
  - destruct (Authenticate_results Demo.env
                "michael@dundermifflin.com" "anything" Demo.with_michael)
      as (_ & _ & _ & _ & _ & Hother).
    eapply Hother; [reflexivity | reflexivity | discriminate].
Defined.

Lemma Authenticate_user_iff_no_error_witness :
  (Some Demo.pam_row <> None <-> @None error_value = None)
  /\ store_calls
       (trace (run Demo.env (Authenticate "pam@dundermifflin.com" "sketchbook")
                   Demo.with_pam))
     = [MkCall (Next (DBByEmail "pam@dundermifflin.com"))].
Proof.
  destruct (Authenticate_user_iff_no_error Demo.env
              "pam@dundermifflin.com" "sketchbook" Demo.with_pam)
    as (Hcalls & Hiff & _).
  split.
  - apply Hiff. reflexivity.
  - exact Hcalls.
Defined.

Lemma Create_three_steps_in_order_witness :
  remember_token_nonempty Demo.env
  /\ run Demo.env (uv.Create Demo.uv Demo.pam) Demo.empty
     = run Demo.env (Spec.Create Demo.uv Demo.pam) Demo.empty.
Proof.
  split.
  - exact Demo_remember_token_nonempty.
  - apply (Create_three_steps_in_order Demo.env Demo.uv Demo.pam Demo.empty).
    exact Demo_remember_token_nonempty.
Defined.

Lemma bcryptPassword_hashes_and_clears_witness :
  Password Demo.pam <> ""
  /\ run Demo.env (bcryptPassword Demo.uv Demo.pam) Demo.empty
     = (Returned
          (set_Password ""
             (set_PasswordHash "$2a$10$sketchbookrandom-string-as-pepper"
                Demo.pam), None),
        Demo.empty,
        [MkCall (BcryptGenerate "sketchbookrandom-string-as-pepper"
                                DefaultCost)])
  /\ run Demo.env (bcryptPassword Demo.uv Demo.michael) Demo.empty
     = (Returned (Demo.michael, None), Demo.empty, [])
  /\ Password Demo.pam_row = ""
  /\ PasswordHash Demo.pam_row = "$2a$10$sketchbookrandom-string-as-pepper".
Proof.
  assert (Hpam : Password Demo.pam <> "") by discriminate.
  split; [exact Hpam | split; [| split]].
  - destruct (bcryptPassword_hashes_and_clears Demo.env Demo.uv
                Demo.pam Demo.empty) as (Hpresent & _).
    apply (Hpresent Hpam
             "$2a$10$sketchbookrandom-string-as-pepper" Demo.empty eq_refl).
  - destruct (bcryptPassword_hashes_and_clears Demo.env Demo.uv
                Demo.michael Demo.empty) as (_ & Habsent & _).
    apply Habsent. reflexivity.
  - destruct (bcryptPassword_hashes_and_clears Demo.env Demo.uv
                (set_Name "Pam Halpert" Demo.pam_row) Demo.with_pam)
      as (_ & _ & _ & Hupdate).
    destruct (Hupdate (set_Name "Pam Halpert" Demo.pam_row))
      as (Hclear & Hkeep & _).
    + left. reflexivity.
    + split; [exact Hclear | apply Hkeep; reflexivity].
Defined.



Lemma Update_never_mints_witness :
  Remember Demo.pam_row = ""
  /\ existsb mints
       (trace (run Demo.env (uv.Update Demo.uv Demo.pam_row) Demo.with_pam))
     = false
  /\ collect updated
       (trace (run Demo.env (uv.Update Demo.uv Demo.pam_row) Demo.with_pam))
     = [Demo.pam_row].
Proof.
  destruct (Update_never_mints Demo.env Demo.uv Demo.pam_row Demo.with_pam
              eq_refl) as (Hmint & _ & Hdelegate).
  split; [reflexivity | split; [exact Hmint |]].
  destruct (Hdelegate Demo.pam_row Demo.with_pam [] eq_refl) as (Hupd & _).
  exact Hupd.
Defined.

Lemma Delete_guard_witness :
  run Demo.env (uv.Delete Demo.uv 0%N) Demo.with_pam
  = (Returned (Some ErrInvalidID), Demo.with_pam, [])
  /\ run Demo.env (uv.Delete Demo.uv 1%N) Demo.with_pam
     = run Demo.env (call (Next (DBDelete 1%N))) Demo.with_pam
  /\ run Demo.env (uv.Delete Demo.uv (uint_of_int (-1))) Demo.with_pam
     = run Demo.env (call (Next (DBDelete (uint_of_int (-1))))) Demo.with_pam.
Proof.
  split; [| split].
  - destruct (Delete_guard Demo.env Demo.uv 0%N Demo.with_pam) as (Hzero & _).
    apply Hzero. reflexivity.
  - destruct (Delete_guard Demo.env Demo.uv 1%N Demo.with_pam)
      as (_ & Hpos & _).
    apply Hpos. reflexivity.
  - destruct (Delete_guard Demo.env Demo.uv 1%N Demo.with_pam)
      as (_ & _ & Hneg).
    apply Hneg. split; [discriminate | reflexivity].
Defined.

Lemma ByRemember_hashes_token_witness :
  run Demo.env (uv.ByRemember Demo.uv "b64:bytes-1") Demo.with_pam
  = run Demo.env
      (call (Next (DBByRemember "hmac(secret-hmac-key,b64:bytes-1)")))
      Demo.with_pam
  /\ run Demo.env (uv.ByRemember Demo.uv "") Demo.with_pam
     = run Demo.env (call (Next (DBByRemember ""))) Demo.with_pam.
Proof.
  split.
  - destruct (ByRemember_hashes_token Demo.env Demo.uv "b64:bytes-1"
                Demo.with_pam) as (Hhash & _).
    apply Hhash. discriminate.
  - destruct (ByRemember_hashes_token Demo.env Demo.uv "" Demo.with_pam)
      as (_ & Hempty).
    apply Hempty. reflexivity.
Defined.

Lemma Delete_rejects_only_zero_witness :
  run Demo.env (uv.Delete Demo.uv 1%N) Demo.with_pam
  = run Demo.env (call (Next (DBDelete 1%N))) Demo.with_pam
  /\ run Demo.env (uv.Delete Demo.uv 0%N) Demo.with_pam
     = (Returned (Some ErrInvalidID), Demo.with_pam, [])
  /\ uint_of_int (-1) <> 0%N.
Proof.
  split; [| split].
  - destruct (Delete_rejects_only_zero Demo.env Demo.uv 1%N Demo.with_pam)
      as (Hnz & _).
    apply Hnz. discriminate.
  - destruct (Delete_rejects_only_zero Demo.env Demo.uv 0%N Demo.with_pam)
      as (_ & Hiff & _).
    apply Hiff. reflexivity.
  - destruct (Delete_rejects_only_zero Demo.env Demo.uv 0%N Demo.with_pam)
      as (_ & _ & Hneg).
    destruct (Hneg (-1)%Z) as (Hnz & _).
    + split; [discriminate | reflexivity].
    + exact Hnz.
Defined.

(** ** Where the code departs from the specification *)



(** C7 as the specification has it fails on the id that -1 converts to:
    it is above 0, the guard passes and the store's Delete is called. *)
Lemma Delete_negative_equivalent_counterexample :
  let r := run Demo.env (uv.Delete Demo.uv (uint_of_int (-1))) Demo.with_pam in
  uint_of_int (-1) = 18446744073709551615%N
  /\ outcome r <> Returned (Some ErrInvalidID)
  /\ trace r = [MkCall (Next (DBDelete 18446744073709551615%N))].
Proof.
  cbv zeta. split; [reflexivity | split].
  - discriminate.
  - reflexivity.
Qed.

(** C8 as the specification has it fails on the empty token, with any
    hasher: the store is asked for the empty string, which is the raw
    token, so it is not true that the store only ever sees a digest that
    differs from the token. *)
Lemma ByRemember_empty_token_counterexample :
  ~ exists v : userValidator,
      let r := run Demo.env (uv.ByRemember v "") Demo.with_pam in
      r = run Demo.env (call (Next (DBByRemember (Hash (hmac v) ""))))
              Demo.with_pam
      /\ forall arg,
          In arg (collect looked_up_by_remember (trace r)) -> arg <> "".
Proof.
  intros (v & _ & Hraw).
  apply (Hraw "").
  - left. reflexivity.
  - reflexivity.
Qed.


(** * Further properties of the package *)

(** ** userGorm *)

Section GormProperties.

Context {W : Type} (h : handler W).

(** [first] hands gorm's record-not-found on as ErrNotFound and every
    other answer as it is, with [dst] as gorm left it: its caller never
    sees gorm's own sentinel. *)
Theorem first_translates_not_found (db : query) (dst : User) (w : W) :
  let r := run h (first db dst) w in
  let a := fst (h _ (GormFirst db dst) w) in
  trace r = [MkCall (GormFirst db dst)]
  /\ exists dst' err,
      outcome r = Returned (dst', err)
      /\ dst' = fst a
      /\ err <> Some ErrRecordNotFound
      /\ (err = None <-> snd a = None)
      /\ (snd a = Some ErrRecordNotFound -> err = Some ErrNotFound)
      /\ (forall e, snd a = Some e -> e <> ErrRecordNotFound -> err = Some e).
Proof.
  cbv zeta. unfold first, outcome, trace. simpl.
  destruct (h _ (GormFirst db dst) w) as [[dst' [e |]] w1]; simpl.
  - destruct e; simpl; (split; [reflexivity |]); do 2 eexists;
      (split; [reflexivity |]);
      repeat split; intros; try discriminate; congruence.
  - split; [reflexivity |]. do 2 eexists. split; [reflexivity |].
    repeat split; intros; try discriminate; congruence.
Qed.

(** [ByID] and [ByRemember] of the userGorm always return, with a user
    exactly when the error is nil, and never with gorm's
    record-not-found. *)
Theorem ug_ByID_ByRemember_user_iff_no_error (id : uint) (rememberHash : string)
    (w : W) :
  (exists user err,
      outcome (run h (ug.ByID id) w) = Returned (user, err)
      /\ (user <> None <-> err = None)
      /\ err <> Some ErrRecordNotFound)
  /\ (exists user err,
         outcome (run h (ug.ByRemember rememberHash) w) = Returned (user, err)
         /\ (user <> None <-> err = None)
         /\ err <> Some ErrRecordNotFound).
Proof.
  unfold ug.ByID, ug.ByRemember, first, outcome.
  split; crunch h;
    try (match goal with e : error_value |- _ => destruct e end; simpl);
    do 2 eexists; (split; [reflexivity |]);
    repeat split; intros; try discriminate; congruence.
Qed.

(** [ByEmail] of the userGorm differs: it hands back a user pointer that
    is never nil, the record as gorm left it, also when it returns an
    error. *)
Theorem ug_ByEmail_pointer_never_nil (email : string) (w : W) :
  let a := fst (h _ (GormFirst (Where "email = ?" (ArgString email)) zeroUser) w)
  in
  exists err,
    outcome (run h (ug.ByEmail email) w) = Returned (Some (fst a), err)
    /\ (err = None <-> snd a = None)
    /\ err <> Some ErrRecordNotFound.
Proof.
  cbv zeta. unfold ug.ByEmail, first, outcome.
  crunch h;
    try (match goal with e : error_value |- _ => destruct e end; simpl);
    eexists; (split; [reflexivity |]);
    repeat split; intros; try discriminate; congruence.
Qed.

End GormProperties.

(** ** The service that NewUserService builds *)

Section ServiceProperties.

Context {W : Type} (h : handler W) (NewHMAC : string -> HMAC).

(** DestructiveReset through the service: when dropping the table fails,
    that error is returned and the migration is not attempted; otherwise
    the table is dropped, then migrated, and the result is the
    migration's. *)
Theorem service_DestructiveReset_stops_on_drop_error (w : W) :
  (forall e w1,
      h _ GormDropTableIfExists w = (Some e, w1) ->
      run h (service NewHMAC DBDestructiveReset) w
      = (Returned (Some e), w1, [MkCall GormDropTableIfExists]))
  /\ (forall w1,
         h _ GormDropTableIfExists w = (None, w1) ->
         run h (service NewHMAC DBDestructiveReset) w
         = (Returned (fst (h _ GormAutoMigrate w1)),
            snd (h _ GormAutoMigrate w1),
            [MkCall GormDropTableIfExists; MkCall GormAutoMigrate])).
Proof.
  unfold service, NewUserService. simpl.
  split.
  - intros e w1 Hdrop. rewrite Hdrop. reflexivity.
  - intros w1 Hdrop. rewrite Hdrop. simpl.
    destruct (h _ GormAutoMigrate w1) as [[e |] w2]; reflexivity.
Qed.

(** Delete through the service never reaches gorm with the id 0: for 0
    nothing is called at all, and for any other id gorm's Delete is
    called once, with a record that carries that id and nothing else. *)
Theorem service_Delete_never_zero (id : uint) (w : W) :
  let r := run h (service NewHMAC (DBDelete id)) w in
  (id = 0%N -> r = (Returned (Some ErrInvalidID), w, []))
  /\ (id <> 0%N ->
      r = (Returned (fst (h _ (GormDelete (set_ID id zeroUser)) w)),
           snd (h _ (GormDelete (set_ID id zeroUser)) w),
           [MkCall (GormDelete (set_ID id zeroUser))]))
  /\ (forall u, In u (collect gorm_deleted (trace r)) -> ID u <> 0%N).
Proof.
  cbv zeta. unfold service, NewUserService, trace. simpl.
  unfold uv.Delete, idGreaterThan. simpl.
  destruct (N.leb_spec id 0) as [Hle | Hlt]; simpl.
  - split; [reflexivity | split]; [lia | intros u []].
  - destruct (h _ (GormDelete (set_ID id zeroUser)) w) as [e w1]; simpl.
    split; [lia | split]; [reflexivity |].
    intros u [<- | []]. simpl. lia.
Qed.

(** ByID and ByEmail through the service are the userGorm's, call for
    call: the validator checks nothing on the way, so ByID of the id 0
    is looked up in the table like any other. *)
Theorem service_lookups_unguarded (id : uint) (email : string) (w : W) :
  run h (service NewHMAC (DBByID id)) w = run h (ug.ByID id) w
  /\ run h (service NewHMAC (DBByEmail email)) w = run h (ug.ByEmail email) w
  /\ trace (run h (service NewHMAC (DBByID 0%N)) w)
     = [MkCall (GormFirst (Where "id = ?" (ArgUint 0%N)) zeroUser)].
Proof.
  unfold service, NewUserService, ug.ByID, ug.ByEmail, first, trace. simpl.
  split; [| split].
  - answer h. destruct x as [dst [[] |]]; reflexivity.
  - answer h. destruct x as [dst [[] |]]; reflexivity.
  - answer h. destruct x as [dst [[] |]]; reflexivity.
Qed.

(** ByRemember through the service, for a token that is not empty: the
    one call is gorm's First on the remember_hash column with the digest
    of the token under hmacSecretKey, and a user comes back exactly when
    the error is nil. *)
Theorem service_ByRemember_queries_digest (token : string) (w : W) :
  token <> "" ->
  let r := run h (service NewHMAC (DBByRemember token)) w in
  trace r
  = [MkCall (GormFirst
               (Where "remember_hash = ?"
                      (ArgString (Hash (NewHMAC hmacSecretKey) token)))
               zeroUser)]
  /\ exists user err,
      outcome r = Returned (user, err) /\ (user <> None <-> err = None).
Proof.
  intros Htoken. cbv zeta.
  unfold service, NewUserService, outcome, trace. simpl.
  unfold uv.ByRemember, hmacRemember. simpl.
  rewrite (eqb_empty_false _ Htoken). simpl.
  answer h. destruct x as [dst [[] |]]; simpl;
    (split; [reflexivity |]); do 2 eexists; (split; [reflexivity |]);
    split; intros; try discriminate; congruence.
Qed.

End ServiceProperties.

(** ** The validation chain *)

Section ChainProperties.

Context {W : Type} (h : handler W) (uv : userValidator).

(** Running two lists of validation functions one after the other is
    running the first list and, only if it returned a nil error,
    the second on the record as the first left it: after an error no
    later function is called. *)
Theorem runUserValFns_app (fns1 fns2 : list userValFn) (user : User) (w : W) :
  run h (runUserValFns user (fns1 ++ fns2)) w
  = and_then (run h (runUserValFns user fns1) w) (continue_with h fns2).
Proof.
  revert user w. induction fns1 as [| fn fns1 IH]; intros user w.
  - simpl. unfold continue_with. simpl.
    destruct (run h (runUserValFns user fns2) w) as [[o w1] t]. reflexivity.
  - change ((fn :: fns1) ++ fns2)%list with (fn :: (fns1 ++ fns2))%list.
    rewrite !run_runUserValFns_cons.
    destruct (run h (fn user) w) as [[[[u [e |]] |] w1] t]; simpl.
    + unfold continue_with. simpl. rewrite ?app_nil_r. reflexivity.
    + rewrite IH.
      destruct (run h (runUserValFns u fns1) w1) as [[[r |] w2] t1]; simpl.
      * destruct (continue_with h fns2 r w2) as [[o w3] t2].
        rewrite app_assoc. reflexivity.
      * reflexivity.
    + reflexivity.
Qed.

(** Create asks the token generator at most once: not at all when the
    candidate comes with a token or when the password step failed, and
    once when there is no token and the password step passed. *)
Theorem Create_mints_at_most_once (user : User) (w : W) :
  let r := run h (uv.Create uv user) w in
  (Remember user <> "" -> filter mints (trace r) = [])
  /\ (forall u e w1 t1,
         run h (bcryptPassword uv user) w = (Returned (u, Some e), w1, t1) ->
         filter mints (trace r) = [])
  /\ (Remember user = "" ->
      forall u w1 t1,
        run h (bcryptPassword uv user) w = (Returned (u, None), w1, t1) ->
        filter mints (trace r) = [MkCall RandRememberToken]).
Proof.
  cbv zeta.
  unfold uv.Create, bcryptPassword, setRememberIfUnset, hmacRemember, trace.
  split; [| split].
  - intros HR. crunch h; try contradiction; reflexivity.
  - intros u e w1 t1. crunch h; intros Hstep; try discriminate; reflexivity.
  - intros HR u w1 t1.
    crunch h; try contradiction; intros Hstep; try discriminate; reflexivity.
Qed.

(** The validator only ever writes the four credential fields: the
    record that Create or Update hands to the store has the id, the
    timestamps, the name, the email and the age of the candidate. *)
Theorem validator_leaves_profile_alone (user : User) (w : W) :
  forall p,
    In p (collect created (trace (run h (uv.Create uv user) w))
          ++ collect updated (trace (run h (uv.Update uv user) w))) ->
    ID p = ID user /\ CreatedAt p = CreatedAt user
    /\ UpdatedAt p = UpdatedAt user /\ DeletedAt p = DeletedAt user
    /\ Name p = Name user /\ Email p = Email user /\ Age p = Age user.
Proof.
  intros p Hin. apply in_app_or in Hin. destruct Hin as [Hin | Hin];
    revert Hin.
  - unfold uv.Create, bcryptPassword, setRememberIfUnset, hmacRemember, trace.
    crunch h; intros Hin; members; subst p; repeat split.
  - unfold uv.Update, bcryptPassword, hmacRemember, trace.
    crunch h; intros Hin; members; subst p; repeat split.
Qed.

(** Update with a plaintext remember token hashes it: the record handed
    to the store's Update carries the digest of that token and the token
    itself, and the token generator is not asked. *)
Theorem Update_rehashes_present_token (user : User) (w : W) :
  Remember user <> "" ->
  let r := run h (uv.Update uv user) w in
  filter mints (trace r) = []
  /\ (forall p,
         In p (collect updated (trace r)) ->
         RememberHash p = Hash (hmac uv) (Remember user)
         /\ Remember p = Remember user)
  /\ (forall user1 w1 t1,
         run h (bcryptPassword uv user) w = (Returned (user1, None), w1, t1) ->
         collect updated (trace r)
         = [set_RememberHash (Hash (hmac uv) (Remember user)) user1]).
Proof.
  intros HR. cbv zeta.
  unfold uv.Update, bcryptPassword, hmacRemember, trace.
  split; [| split].
  - crunch h; reflexivity.
  - intros p. crunch h; try contradiction; intros Hin; members; subst p;
      simpl; split; reflexivity.
  - intros user1 w1 t1.
    crunch h; try contradiction; intros Hstep; inversion Hstep; subst;
      reflexivity.
Qed.

(** Create and Update call the store at most once, with their own
    method and as their last call; when they do not call it, they
    return the error of a validation step. *)
Theorem validator_calls_store_at_most_once (user : User) (w : W) :
  let rc := run h (uv.Create uv user) w in
  let ru := run h (uv.Update uv user) w in
  (store_calls (trace rc)
   = map (fun p => MkCall (Next (DBCreate p))) (collect created (trace rc))
   /\ (length (collect created (trace rc)) <= 1)%nat
   /\ (collect created (trace rc) = [] ->
       exists u e, outcome rc = Returned (u, Some e))
   /\ (forall p, In p (collect created (trace rc)) ->
       nth_error (rev (trace rc)) 0 = Some (MkCall (Next (DBCreate p)))))
  /\ (store_calls (trace ru)
      = map (fun p => MkCall (Next (DBUpdate p))) (collect updated (trace ru))
      /\ (length (collect updated (trace ru)) <= 1)%nat
      /\ (collect updated (trace ru) = [] ->
          exists u e, outcome ru = Returned (u, Some e))
      /\ (forall p, In p (collect updated (trace ru)) ->
          nth_error (rev (trace ru)) 0 = Some (MkCall (Next (DBUpdate p))))).
Proof.
  cbv zeta. split.
  - unfold uv.Create, bcryptPassword, setRememberIfUnset, hmacRemember,
      store_calls, outcome, trace.
    crunch h; (split; [reflexivity | split; [lia | split]]);
      try (intros _; do 2 eexists; reflexivity); try discriminate;
      intros p Hin; members; subst p; reflexivity.
  - unfold uv.Update, bcryptPassword, hmacRemember, store_calls,
      outcome, trace.
    crunch h; (split; [reflexivity | split; [lia | split]]);
      try (intros _; do 2 eexists; reflexivity); try discriminate;
      intros p Hin; members; subst p; reflexivity.
Qed.

End ChainProperties.

(** ** From Create to Authenticate and ByRemember *)

Section RoundTrips.

Context {W : Type} (h : handler W) (uv : userValidator).

(** Password round trip.  Create and Authenticate give bcrypt the same
    string, password + pepper: if the lookup by email finds a record with
    the PasswordHash that Create handed to the store, Authenticate with
    the password of the candidate returns that record.  (bcrypt accepts
    the password that it hashed.) *)
Theorem Create_then_Authenticate (user : User) (w : W) :
  bcrypt_consistent h ->
  Password user <> "" ->
  forall p,
    In p (collect created (trace (run h (uv.Create uv user) w))) ->
    forall email w' found w1,
      h _ (Next (DBByEmail email)) w' = ((Some found, None), w1) ->
      PasswordHash found = PasswordHash p ->
      outcome (run h (Authenticate email (Password user)) w')
      = Returned (Some found, None).
Proof.
  intros Hbcrypt HP p Hin email w' found w1 Hlookup Hhash.
  destruct (h _ (BcryptGenerate (Password user ++ userPwPepper) DefaultCost) w)
    as [[hashed err] w2] eqn:Hgen.
  assert (Hpassed : hashed = PasswordHash p /\ err = None).
  { revert Hin Hgen.
    unfold uv.Create, bcryptPassword, setRememberIfUnset, hmacRemember, trace.
    crunch h; try contradiction; intros Hin Hgen; members; subst p; simpl;
      split; congruence. }
  destruct Hpassed as [-> ->].
  pose proof (Hbcrypt _ _ _ _ _ w1 Hgen) as Hcompare.
  unfold Authenticate, outcome. simpl. rewrite Hlookup. simpl.
  rewrite Hhash.
  destruct (h _ (BcryptCompare (PasswordHash p)
                               (Password user ++ userPwPepper)) w1)
    as [err w3].
  simpl in Hcompare. subst err. reflexivity.
Qed.

(** Remember-token round trip.  The token that a record leaves Create
    or Update with finds that record: ByRemember of that token asks the
    store for exactly the RememberHash that was handed to the store. *)
Theorem token_of_Create_resolves (user : User) (w : W) :
  forall p,
    In p (collect created (trace (run h (uv.Create uv user) w))
          ++ collect updated (trace (run h (uv.Update uv user) w))) ->
    Remember p <> "" ->
    forall w',
      run h (uv.ByRemember uv (Remember p)) w'
      = run h (call (Next (DBByRemember (RememberHash p)))) w'.
Proof.
  intros p Hin Htoken w'.
  assert (Hdigest : RememberHash p = Hash (hmac uv) (Remember p)).
  { apply in_app_or in Hin. destruct Hin as [Hin | Hin]; revert Hin Htoken.
    - unfold uv.Create, bcryptPassword, setRememberIfUnset, hmacRemember,
        trace.
      crunch h; intros Hin; members; subst p; simpl; congruence.
    - unfold uv.Update, bcryptPassword, hmacRemember, trace.
      crunch h; intros Hin; members; subst p; simpl; congruence. }
  rewrite Hdigest. unfold uv.ByRemember, hmacRemember. simpl.
  rewrite (eqb_empty_false _ Htoken). reflexivity.
Qed.

(** Authenticate never lets a caller in without bcrypt: when it returns
    a user, the lookup returned that user with a nil error, bcrypt was
    asked about that user's PasswordHash and password + pepper, and it
    answered nil.  When the lookup returns an error, bcrypt is not asked
    at all. *)
Theorem Authenticate_success_needs_bcrypt (email password : string) (w : W) :
  let r := run h (Authenticate email password) w in
  (forall user err,
      outcome r = Returned (Some user, err) ->
      err = None
      /\ exists w1,
          h _ (Next (DBByEmail email)) w = ((Some user, None), w1)
          /\ fst (h _ (BcryptCompare (PasswordHash user)
                                     (password ++ userPwPepper)) w1) = None
          /\ trace r
             = [MkCall (Next (DBByEmail email));
                MkCall (BcryptCompare (PasswordHash user)
                                      (password ++ userPwPepper))])
  /\ (forall foundUser e w1,
         h _ (Next (DBByEmail email)) w = ((foundUser, Some e), w1) ->
         filter compares (trace r) = []).
Proof.
  cbv zeta. unfold Authenticate, outcome, trace. simpl.
  split.
  - intros user err.
    destruct (h _ (Next (DBByEmail email)) w) as [[[found |] [e |]] w1];
      simpl; try discriminate.
    destruct (h _ (BcryptCompare (PasswordHash found)
                                 (password ++ userPwPepper)) w1)
      as [[e |] w2] eqn:Hcompare; simpl.
    + destruct e; discriminate.
    + intros [= <- <-]. split; [reflexivity |].
      exists w1. rewrite Hcompare. repeat split.
  - intros foundUser e w1 Hlookup. rewrite Hlookup. reflexivity.
Qed.

End RoundTrips.

(** ** Records that are already validated *)

Section ValidatedRecords.

Context {W : Type} (h : handler W).

(** Update of a record without a plaintext password whose RememberHash
    already is the digest of its token (or that has no token) is the
    store's Update of that very record, with no call to bcrypt or to the
    token generator; the record that Create handed to the store is such
    a record, so an Update right after a Create changes no credential. *)
Theorem Update_of_validated_record (uv : userValidator) (user : User) (w : W) :
  (Password user = "" ->
   (Remember user <> "" ->
    RememberHash user = Hash (hmac uv) (Remember user)) ->
   run h (uv.Update uv user) w = run h (call (Next (DBUpdate user))) w)
  /\ (forall p w',
         In p (collect created (trace (run h (uv.Create uv user) w))) ->
         run h (uv.Update uv p) w' = run h (call (Next (DBUpdate p))) w').
Proof.
  assert (Hfixed : forall u w0,
             Password u = "" ->
             (Remember u <> "" -> RememberHash u = Hash (hmac uv) (Remember u)) ->
             run h (uv.Update uv u) w0 = run h (call (Next (DBUpdate u))) w0).
  { intros u w0 HP HR. unfold uv.Update, bcryptPassword, hmacRemember.
    simpl. rewrite HP. simpl.
    destruct (String.eqb_spec (Remember u) "") as [Hempty | Hpresent]; simpl.
    - reflexivity.
    - rewrite <- (HR Hpresent). destruct u; reflexivity. }
  split; [apply Hfixed |].
  intros p w' Hin. apply Hfixed; revert Hin;
    unfold uv.Create, bcryptPassword, setRememberIfUnset, hmacRemember, trace;
    crunch h; intros Hin; members; subst p; simpl; congruence.
Qed.

(** Create through the service: gorm's Create is called at most once
    and is the only call to gorm; the record it gets has no plaintext
    password, the email of the candidate and, for its token, the digest
    under hmacSecretKey. *)
Theorem service_Create_hands_gorm_hashed_record (NewHMAC : string -> HMAC)
    (user : User) (w : W) :
  let r := run h (service NewHMAC (DBCreate user)) w in
  store_calls (trace r)
  = map (fun p => MkCall (GormCreate p)) (collect gorm_created (trace r))
  /\ (length (collect gorm_created (trace r)) <= 1)%nat
  /\ (forall p,
         In p (collect gorm_created (trace r)) ->
         Password p = "" /\ Email p = Email user
         /\ (Remember p <> "" ->
             RememberHash p = Hash (NewHMAC hmacSecretKey) (Remember p))).
Proof.
  cbv zeta. unfold service, NewUserService, store_calls, trace. simpl.
  unfold uv.Create, bcryptPassword, setRememberIfUnset, hmacRemember.
  crunch h; (split; [reflexivity | split; [lia |]]);
    intros p Hin; members; subst p; simpl; repeat split; congruence.
Qed.

End ValidatedRecords.


(** ** Runs of the further properties in the environment of [Demo] *)

Lemma Demo_bcrypt_consistent : bcrypt_consistent Demo.env.
Proof.
  intros password cost w hashed w1 w'. simpl.
  intros [= <- _]. simpl. rewrite String.eqb_refl. reflexivity.
Defined.

Lemma first_translates_not_found_witness :
  exists dst' err,
    outcome (run Demo.base
               (first (Where "email = ?" (ArgString "nobody@example.com"))
                      zeroUser)
               Demo.with_pam)
    = Returned (dst', err)
    /\ err = Some ErrNotFound.
Proof.
  destruct (first_translates_not_found Demo.base
              (Where "email = ?" (ArgString "nobody@example.com"))
              zeroUser Demo.with_pam)
    as (_ & dst' & err & Hout & _ & _ & _ & Hnotfound & _).
  exists dst', err. split; [exact Hout | apply Hnotfound; reflexivity].
Defined.

Lemma ug_ByID_ByRemember_user_iff_no_error_witness :
  exists user err,
    outcome (run Demo.base (ug.ByID 7%N) Demo.with_pam) = Returned (user, err)
    /\ (user <> None <-> err = None)
    /\ err <> Some ErrRecordNotFound.
Proof.
  exact (proj1 (ug_ByID_ByRemember_user_iff_no_error Demo.base 7%N
                  "no-such-digest" Demo.with_pam)).
Defined.

Lemma ug_ByEmail_pointer_never_nil_witness :
  exists err,
    outcome (run Demo.base (ug.ByEmail "nobody@example.com") Demo.with_pam)
    = Returned (Some zeroUser, err)
    /\ err <> None.
Proof.
  destruct (ug_ByEmail_pointer_never_nil Demo.base "nobody@example.com"
              Demo.with_pam) as (err & Hout & Hnil & _).
  exists err. split; [exact Hout |].
  intros Herr. apply Hnil in Herr. discriminate.
Defined.

Lemma service_DestructiveReset_stops_on_drop_error_witness :
  run Demo.down (service Demo.toy_hmac DBDestructiveReset) Demo.with_pam
  = (Returned Demo.outage, Demo.with_pam, [MkCall GormDropTableIfExists])
  /\ trace (run Demo.base (service Demo.toy_hmac DBDestructiveReset)
                Demo.with_pam)
     = [MkCall GormDropTableIfExists; MkCall GormAutoMigrate].
Proof.
  split.
  - destruct (service_DestructiveReset_stops_on_drop_error Demo.down
                Demo.toy_hmac Demo.with_pam) as (Hfail & _).
    apply (Hfail (ErrOther "service unavailable") Demo.with_pam eq_refl).
  - destruct (service_DestructiveReset_stops_on_drop_error Demo.base
                Demo.toy_hmac Demo.with_pam) as (_ & Hok).
    rewrite (Hok (Demo.with_rows [] Demo.with_pam) eq_refl). reflexivity.
Defined.

Lemma service_Delete_never_zero_witness :
  run Demo.base (service Demo.toy_hmac (DBDelete 0%N)) Demo.with_pam
  = (Returned (Some ErrInvalidID), Demo.with_pam, [])
  /\ trace (run Demo.base (service Demo.toy_hmac (DBDelete 1%N)) Demo.with_pam)
     = [MkCall (GormDelete (set_ID 1%N zeroUser))]
  /\ ID (set_ID 1%N zeroUser) <> 0%N.
Proof.
  split; [| split].
  - destruct (service_Delete_never_zero Demo.base Demo.toy_hmac 0%N
                Demo.with_pam) as (Hzero & _).
    apply Hzero. reflexivity.
  - destruct (service_Delete_never_zero Demo.base Demo.toy_hmac 1%N
                Demo.with_pam) as (_ & Hpos & _).
    rewrite Hpos by discriminate. reflexivity.
  - destruct (service_Delete_never_zero Demo.base Demo.toy_hmac 1%N
                Demo.with_pam) as (_ & _ & Hnever).
    apply Hnever. left. reflexivity.
Defined.

Lemma service_ByRemember_queries_digest_witness :
  trace (run Demo.base (service Demo.toy_hmac (DBByRemember "b64:bytes-1"))
             Demo.with_pam)
  = [MkCall (GormFirst
               (Where "remember_hash = ?"
                      (ArgString "hmac(secret-hmac-key,b64:bytes-1)"))
               zeroUser)].
Proof.
  destruct (service_ByRemember_queries_digest Demo.base Demo.toy_hmac
              "b64:bytes-1" Demo.with_pam) as (Htrace & _).
  - discriminate.
  - exact Htrace.
Defined.

Lemma Create_mints_at_most_once_witness :
  filter mints
    (trace (run Demo.env (uv.Create Demo.uv (set_Remember "cookie" Demo.pam))
                Demo.empty)) = []
  /\ filter mints
       (trace (run Demo.down (uv.Create Demo.uv Demo.pam) Demo.empty)) = []
  /\ filter mints
       (trace (run Demo.env (uv.Create Demo.uv Demo.michael) Demo.empty))
     = [MkCall RandRememberToken].
Proof.
  split; [| split].
  - destruct (Create_mints_at_most_once Demo.env Demo.uv
                (set_Remember "cookie" Demo.pam) Demo.empty) as (Htoken & _).
    apply Htoken. discriminate.
  - destruct (Create_mints_at_most_once Demo.down Demo.uv Demo.pam Demo.empty)
      as (_ & Hfailed & _).
    eapply Hfailed. reflexivity.
  - destruct (Create_mints_at_most_once Demo.env Demo.uv Demo.michael
                Demo.empty) as (_ & _ & Hmint).
    eapply Hmint; reflexivity.
Defined.

Lemma validator_leaves_profile_alone_witness :
  ID Demo.pam_validated = ID Demo.pam
  /\ Name Demo.pam_validated = Name Demo.pam
  /\ Email Demo.pam_validated = Email Demo.pam
  /\ Age Demo.pam_validated = Age Demo.pam.
Proof.
  destruct (validator_leaves_profile_alone Demo.env Demo.uv Demo.pam Demo.empty
              Demo.pam_validated)
    as (Hid & _ & _ & _ & Hname & Hemail & Hage).
  - apply in_or_app. left. left. reflexivity.
  - repeat split; assumption.
Defined.

Lemma Update_rehashes_present_token_witness :
  collect updated
    (trace (run Demo.env
              (uv.Update Demo.uv (set_Remember "cookie" Demo.pam_row))
              Demo.with_pam))
  = [set_RememberHash "hmac(secret-hmac-key,cookie)"
       (set_Remember "cookie" Demo.pam_row)].
Proof.
  destruct (Update_rehashes_present_token Demo.env Demo.uv
              (set_Remember "cookie" Demo.pam_row) Demo.with_pam)
    as (_ & _ & Hupdated).
  - discriminate.
  - apply (Hupdated (set_Remember "cookie" Demo.pam_row) Demo.with_pam []).
    reflexivity.
Defined.

Lemma validator_calls_store_at_most_once_witness :
  (exists u e,
      outcome (run Demo.down (uv.Create Demo.uv Demo.pam) Demo.empty)
      = Returned (u, Some e))
  /\ nth_error
       (rev (trace (run Demo.env (uv.Create Demo.uv Demo.pam) Demo.empty))) 0
     = Some (MkCall (Next (DBCreate Demo.pam_validated)))
  /\ nth_error
       (rev (trace (run Demo.env (uv.Update Demo.uv Demo.pam_row)
                        Demo.with_pam))) 0
     = Some (MkCall (Next (DBUpdate Demo.pam_row))).
Proof.
  split; [| split].
  - destruct (validator_calls_store_at_most_once Demo.down Demo.uv Demo.pam
                Demo.empty) as ((_ & _ & Hnone & _) & _).
    apply Hnone. reflexivity.
  - destruct (validator_calls_store_at_most_once Demo.env Demo.uv Demo.pam
                Demo.empty) as ((_ & _ & _ & Hlast) & _).
    apply Hlast. left. reflexivity.
  - destruct (validator_calls_store_at_most_once Demo.env Demo.uv Demo.pam_row
                Demo.with_pam) as (_ & (_ & _ & _ & Hlast)).
    apply Hlast. left. reflexivity.
Defined.

Lemma Create_then_Authenticate_witness :
  outcome (run Demo.env (Authenticate "pam@dundermifflin.com" "sketchbook")
               Demo.with_pam)
  = Returned (Some Demo.pam_row, None).
Proof.
  apply (Create_then_Authenticate Demo.env Demo.uv Demo.pam Demo.empty
           Demo_bcrypt_consistent) with (p := Demo.pam_validated)
                                        (w1 := Demo.with_pam).
  - discriminate.
  - left. reflexivity.
  - reflexivity.
  - reflexivity.
Defined.

Lemma token_of_Create_resolves_witness :
  run Demo.env (uv.ByRemember Demo.uv "b64:bytes-1") Demo.with_pam
  = run Demo.env
      (call (Next (DBByRemember "hmac(secret-hmac-key,b64:bytes-1)")))
      Demo.with_pam.
Proof.
  apply (token_of_Create_resolves Demo.env Demo.uv Demo.pam Demo.empty
           Demo.pam_validated).
  - apply in_or_app. left. left. reflexivity.
  - discriminate.
Defined.

Lemma Authenticate_success_needs_bcrypt_witness :
  trace (run Demo.env (Authenticate "pam@dundermifflin.com" "sketchbook")
             Demo.with_pam)
  = [MkCall (Next (DBByEmail "pam@dundermifflin.com"));
     MkCall (BcryptCompare "$2a$10$sketchbookrandom-string-as-pepper"
                           "sketchbookrandom-string-as-pepper")]
  /\ filter compares
       (trace (run Demo.env (Authenticate "nobody@example.com" "sketchbook")
                   Demo.with_pam)) = [].
Proof.
  split.
  - destruct (Authenticate_success_needs_bcrypt Demo.env
                "pam@dundermifflin.com" "sketchbook" Demo.with_pam)
      as (Hsuccess & _).
    destruct (Hsuccess Demo.pam_row None eq_refl)
      as (_ & w1 & _ & _ & Htrace).
    exact Htrace.
  - destruct (Authenticate_success_needs_bcrypt Demo.env
                "nobody@example.com" "sketchbook" Demo.with_pam)
      as (_ & Hfailed).
    apply (Hfailed (Some zeroUser) ErrNotFound Demo.with_pam). reflexivity.
Defined.

Lemma Update_of_validated_record_witness :
  run Demo.env (uv.Update Demo.uv Demo.pam_row) Demo.with_pam
  = run Demo.env (call (Next (DBUpdate Demo.pam_row))) Demo.with_pam
  /\ run Demo.env (uv.Update Demo.uv Demo.pam_validated) Demo.with_pam
     = run Demo.env (call (Next (DBUpdate Demo.pam_validated))) Demo.with_pam.
Proof.
  split.
  - destruct (Update_of_validated_record Demo.env Demo.uv Demo.pam_row
                Demo.with_pam) as (Hfixed & _).
    apply Hfixed; [reflexivity | intros Htoken; exfalso; apply Htoken;
                                 reflexivity].
  - destruct (Update_of_validated_record Demo.env Demo.uv Demo.pam Demo.empty)
      as (_ & Hafter).
    apply Hafter. left. reflexivity.
Defined.

Lemma service_Create_hands_gorm_hashed_record_witness :
  Password Demo.pam_validated = ""
  /\ Email Demo.pam_validated = Email Demo.pam
  /\ RememberHash Demo.pam_validated
     = Hash (Demo.toy_hmac hmacSecretKey) (Remember Demo.pam_validated).
Proof.
  destruct (service_Create_hands_gorm_hashed_record Demo.base Demo.toy_hmac
              Demo.pam Demo.empty) as (_ & _ & Hrecord).
  destruct (Hrecord Demo.pam_validated) as (Hclear & Hemail & Hdigest).
  - left. reflexivity.
  - split; [exact Hclear | split; [exact Hemail |]].
    apply Hdigest. discriminate.
Defined.
